(** * Dynamic MCP demo: the registry and its read-only handlers

    A shallow embedding of [src/app/app.py].  The program holds one global
    dictionary, [MCP_CONFIGS], and six FastAPI handlers that look an endpoint
    key up in it and either return the stored value or raise
    [HTTPException(status_code=404, ...)].

    Modelling choices:
    - Python [str] values are Rocq strings holding the UTF-8 bytes of the
      text.  UTF-8 is injective and compatible with concatenation, so [==],
      [+], f-string interpolation and [", ".join] agree with the byte-level
      operations used here.
    - A Python [dict] keeps insertion order, and the handlers expose that
      order ([list(d.keys())], [", ".join(d.keys())]); dictionaries are
      therefore association lists in insertion order.
    - The global [MCP_CONFIGS] is the state threaded through the [Handler]
      monad; a raised exception is an outcome of the handler.  A handler
      body evaluates the name [MCP_CONFIGS] several times with no [await] in
      between, so every evaluation sees the same dictionary and the model
      loads it once.
    - A handler is its Python body: the path parameters are its arguments,
      the returned object or the raised exception its outcome.  Matching a
      URL to a route and serialising the outcome to JSON are FastAPI's. *)

From Stdlib Require Import ZArith.
From stdpp Require Import base option list strings.

(** ** Python values and dictionaries *)

(** The JSON-like values stored in [Tool.inputSchema] ([Dict[str, Any]]) and
    returned by the two listing handlers. *)
#[local] Unset Elimination Schemes.
Inductive PyValue : Type :=
  | PyNone
  | PyBool (b : bool)
  | PyInt (z : Z)
  | PyStr (s : string)
  | PyList (items : list PyValue)
  | PyDict (entries : list (string * PyValue)).
#[local] Set Elimination Schemes.

(** A [dict] with [str] keys, in insertion order. *)
Definition Dict (V : Type) : Type := list (string * V).

Section Dict.
Context {V : Type}.

(** [d.keys()] *)
Definition dict_keys (d : Dict V) : list string := d.*1.

(** [d.items()] *)
Definition dict_items (d : Dict V) : list (string * V) := d.

(** [d[k]]; [None] stands for the [KeyError] of a missing key. *)
Fixpoint dict_getitem (d : Dict V) (k : string) : option V :=
  match d with
  | [] => None
  | (k', v) :: d' => if decide (k' = k) then Some v else dict_getitem d' k
  end.

(** [k in d] *)
Definition dict_contains (k : string) (d : Dict V) : bool :=
  bool_decide (k ∈ dict_keys d).

(** [d[k] = v]: an existing key keeps its position, a new key is appended. *)
Fixpoint dict_setitem (k : string) (v : V) (d : Dict V) : Dict V :=
  match d with
  | [] => [(k, v)]
  | (k', v') :: d' =>
      if decide (k' = k) then (k', v) :: d' else (k', v') :: dict_setitem k v d'
  end.

(** [{key(x): value(x) for x in xs}] *)
Definition dict_comprehension {X : Type} (f : X → string * V) (xs : list X) : Dict V :=
  foldl (λ d x, dict_setitem (f x).1 (f x).2 d) [] xs.
End Dict.

(** [v[k]] for a value that is a [dict]. *)
Definition py_getitem (v : PyValue) (k : string) : option PyValue :=
  match v with
  | PyDict entries => dict_getitem entries k
  | _ => None
  end.

(** ** Data model (the pydantic classes) *)

Module Tool.
Record t : Type := mk {
  name : string;
  description : string;
  inputSchema : Dict PyValue
}.
End Tool.

Module ServerInfo.
Record t : Type := mk {
  name : string;
  version : string;
  description : option string
}.
End ServerInfo.

Module MCPConfig.
Record t : Type := mk {
  server : ServerInfo.t;
  tools : list Tool.t
}.
End MCPConfig.

Definition Registry : Type := Dict MCPConfig.t.

(** ** The seeded registry

    The dictionary literal bound to [MCP_CONFIGS] at import time.  Its four
    keys are distinct, so the literal denotes the association list of its
    entries in source order. *)

Definition MCP_CONFIGS : Registry := [
  ("weather", MCPConfig.mk
    (ServerInfo.mk "Weather MCP Server" "1.0.0" (Some "提供天气查询相关的工具"))
    [ Tool.mk "get_weather" "获取指定城市的天气信息"
        [ ("type", PyStr "object");
          ("properties", PyDict [
            ("city", PyDict [
              ("type", PyStr "string");
              ("description", PyStr "要查询天气的城市名称") ]);
            ("unit", PyDict [
              ("type", PyStr "string");
              ("enum", PyList [PyStr "celsius"; PyStr "fahrenheit"]);
              ("description", PyStr "温度单位");
              ("default", PyStr "celsius") ]) ]);
          ("required", PyList [PyStr "city"]) ];
      Tool.mk "get_forecast" "获取指定城市的天气预报"
        [ ("type", PyStr "object");
          ("properties", PyDict [
            ("city", PyDict [
              ("type", PyStr "string");
              ("description", PyStr "要查询天气预报的城市名称") ]);
            ("days", PyDict [
              ("type", PyStr "integer");
              ("description", PyStr "预报天数（1-7天）");
              ("minimum", PyInt 1);
              ("maximum", PyInt 7);
              ("default", PyInt 3) ]) ]);
          ("required", PyList [PyStr "city"]) ] ]);
  ("database", MCPConfig.mk
    (ServerInfo.mk "Database MCP Server" "1.0.0" (Some "提供数据库操作相关的工具"))
    [ Tool.mk "query_database" "执行SQL查询"
        [ ("type", PyStr "object");
          ("properties", PyDict [
            ("sql", PyDict [
              ("type", PyStr "string");
              ("description", PyStr "要执行的SQL查询语句") ]);
            ("database", PyDict [
              ("type", PyStr "string");
              ("description", PyStr "数据库名称");
              ("default", PyStr "default") ]) ]);
          ("required", PyList [PyStr "sql"]) ];
      Tool.mk "execute_command" "执行数据库命令（INSERT, UPDATE, DELETE）"
        [ ("type", PyStr "object");
          ("properties", PyDict [
            ("command", PyDict [
              ("type", PyStr "string");
              ("description", PyStr "要执行的SQL命令") ]);
            ("database", PyDict [
              ("type", PyStr "string");
              ("description", PyStr "数据库名称");
              ("default", PyStr "default") ]) ]);
          ("required", PyList [PyStr "command"]) ];
      Tool.mk "list_tables" "列出数据库中的所有表"
        [ ("type", PyStr "object");
          ("properties", PyDict [
            ("database", PyDict [
              ("type", PyStr "string");
              ("description", PyStr "数据库名称");
              ("default", PyStr "default") ]) ]);
          ("required", PyList []) ] ]);
  ("file", MCPConfig.mk
    (ServerInfo.mk "File System MCP Server" "1.0.0" (Some "提供文件系统操作相关的工具"))
    [ Tool.mk "read_file" "读取文件内容"
        [ ("type", PyStr "object");
          ("properties", PyDict [
            ("path", PyDict [
              ("type", PyStr "string");
              ("description", PyStr "要读取的文件路径") ]);
            ("encoding", PyDict [
              ("type", PyStr "string");
              ("description", PyStr "文件编码");
              ("default", PyStr "utf-8") ]) ]);
          ("required", PyList [PyStr "path"]) ];
      Tool.mk "write_file" "写入文件内容"
        [ ("type", PyStr "object");
          ("properties", PyDict [
            ("path", PyDict [
              ("type", PyStr "string");
              ("description", PyStr "要写入的文件路径") ]);
            ("content", PyDict [
              ("type", PyStr "string");
              ("description", PyStr "要写入的文件内容") ]);
            ("encoding", PyDict [
              ("type", PyStr "string");
              ("description", PyStr "文件编码");
              ("default", PyStr "utf-8") ]) ]);
          ("required", PyList [PyStr "path"; PyStr "content"]) ];
      Tool.mk "list_directory" "列出目录内容"
        [ ("type", PyStr "object");
          ("properties", PyDict [
            ("path", PyDict [
              ("type", PyStr "string");
              ("description", PyStr "要列出的目录路径");
              ("default", PyStr ".") ]);
            ("recursive", PyDict [
              ("type", PyStr "boolean");
              ("description", PyStr "是否递归列出子目录");
              ("default", PyBool false) ]) ]);
          ("required", PyList []) ] ]);
  ("api", MCPConfig.mk
    (ServerInfo.mk "API Client MCP Server" "1.0.0" (Some "提供HTTP API调用相关的工具"))
    [ Tool.mk "http_get" "发送HTTP GET请求"
        [ ("type", PyStr "object");
          ("properties", PyDict [
            ("url", PyDict [
              ("type", PyStr "string");
              ("description", PyStr "请求的URL") ]);
            ("headers", PyDict [
              ("type", PyStr "object");
              ("description", PyStr "HTTP请求头");
              ("additionalProperties", PyDict [("type", PyStr "string")]) ]) ]);
          ("required", PyList [PyStr "url"]) ];
      Tool.mk "http_post" "发送HTTP POST请求"
        [ ("type", PyStr "object");
          ("properties", PyDict [
            ("url", PyDict [
              ("type", PyStr "string");
              ("description", PyStr "请求的URL") ]);
            ("body", PyDict [
              ("type", PyStr "object");
              ("description", PyStr "请求体（JSON格式）") ]);
            ("headers", PyDict [
              ("type", PyStr "object");
              ("description", PyStr "HTTP请求头");
              ("additionalProperties", PyDict [("type", PyStr "string")]) ]) ]);
          ("required", PyList [PyStr "url"; PyStr "body"]) ] ])
].

(** ** Handlers: reading the global registry, raising exceptions *)

(** The exceptions a handler can raise: the explicit
    [HTTPException(status_code, detail)] and the [KeyError] of a subscript on
    a missing key. *)
Inductive PyExn : Type :=
  | HTTPException (status_code : Z) (detail : string)
  | KeyError (key : string).

Inductive Outcome (A : Type) : Type :=
  | Returned (a : A)
  | Raised (e : PyExn).
Arguments Returned {A} a.
Arguments Raised {A} e.

(** A handler runs against the current value of the module-level global and
    yields an outcome together with the value of the global afterwards. *)
Definition Handler (A : Type) : Type := Registry → Outcome A * Registry.

#[export] Instance handler_ret : MRet Handler := λ A a s, (Returned a, s).

#[export] Instance handler_bind : MBind Handler := λ A B f m s,
  match m s with
  | (Returned a, s') => f a s'
  | (Raised e, s') => (Raised e, s')
  end.

#[export] Instance handler_throw : MThrow PyExn Handler := λ A e s, (Raised e, s).

(** Evaluating the global name [MCP_CONFIGS]. *)
Definition load_MCP_CONFIGS : Handler Registry := λ s, (Returned s, s).

(** Rebinding or mutating the global, which the state of a [Handler] allows.
    No handler of the program does it. *)
Definition store_MCP_CONFIGS (s' : Registry) : Handler unit := λ _, (Returned (), s').

(** [d[k]] as a handler step. *)
Definition subscript {A : Type} (d : Dict A) (k : string) : Handler A :=
  match dict_getitem d k with
  | Some v => mret v
  | None => mthrow (KeyError k)
  end.

(** The outcome and the final registry of a handler run. *)
Definition outcome {A : Type} (h : Handler A) (s : Registry) : Outcome A := (h s).1.
Definition final_state {A : Type} (h : Handler A) (s : Registry) : Registry := (h s).2.

(** [next((t for t in tools if t.name == tool_name), None)] *)
Fixpoint next_tool_named (tool_name : string) (tools : list Tool.t) : option Tool.t :=
  match tools with
  | [] => None
  | t :: tools' =>
      if decide (Tool.name t = tool_name) then Some t
      else next_tool_named tool_name tools'
  end.

(** [GET /mcp/{endpoint}] *)
Definition get_mcp_config (endpoint : string) : Handler MCPConfig.t :=
  configs ← load_MCP_CONFIGS;
  if negb (dict_contains endpoint configs) then
    let available := String.concat ", " (dict_keys configs) in
    mthrow (HTTPException 404
      ("MCP端点 '" +:+ endpoint +:+ "' 不存在。可用的端点: " +:+ available))
  else
    subscript configs endpoint.

(** [GET /mcp/{endpoint}/server] *)
Definition get_mcp_server_info (endpoint : string) : Handler ServerInfo.t :=
  configs ← load_MCP_CONFIGS;
  if negb (dict_contains endpoint configs) then
    let available := String.concat ", " (dict_keys configs) in
    mthrow (HTTPException 404
      ("MCP端点 '" +:+ endpoint +:+ "' 不存在。可用的端点: " +:+ available))
  else
    config ← subscript configs endpoint;
    mret (MCPConfig.server config).

(** [GET /mcp/{endpoint}/tools] *)
Definition get_mcp_tools (endpoint : string) : Handler (list Tool.t) :=
  configs ← load_MCP_CONFIGS;
  if negb (dict_contains endpoint configs) then
    let available := String.concat ", " (dict_keys configs) in
    mthrow (HTTPException 404
      ("MCP端点 '" +:+ endpoint +:+ "' 不存在。可用的端点: " +:+ available))
  else
    config ← subscript configs endpoint;
    mret (MCPConfig.tools config).

(** [GET /mcp/{endpoint}/tools/{tool_name}].  [if not tool] tests the result
    of [next] for [None]: a pydantic model defines neither [__bool__] nor
    [__len__], so a found tool is truthy. *)
Definition get_tool_description (endpoint tool_name : string) : Handler Tool.t :=
  configs ← load_MCP_CONFIGS;
  if negb (dict_contains endpoint configs) then
    let available := String.concat ", " (dict_keys configs) in
    mthrow (HTTPException 404
      ("MCP端点 '" +:+ endpoint +:+ "' 不存在。可用的端点: " +:+ available))
  else
    config ← subscript configs endpoint;
    match next_tool_named tool_name (MCPConfig.tools config) with
    | None =>
        let available_tools :=
          String.concat ", " (Tool.name <$> MCPConfig.tools config) in
        mthrow (HTTPException 404
          ("工具 '" +:+ tool_name +:+ "' 在端点 '" +:+ endpoint
             +:+ "' 中不存在。可用的工具: " +:+ available_tools))
    | Some tool => mret tool
    end.

(** [GET /] *)
Definition root : Handler PyValue :=
  configs ← load_MCP_CONFIGS;
  mret (PyDict [
    ("message", PyStr "Dynamic MCP Demo Server");
    ("available_endpoints", PyList (PyStr <$> dict_keys configs));
    ("endpoints_info", PyDict (dict_comprehension
       (λ '(endpoint, config),
          (endpoint, PyDict [
             ("server_name", PyStr (ServerInfo.name (MCPConfig.server config)));
             ("tools_count", PyInt (Z.of_nat (length (MCPConfig.tools config)))) ]))
       (dict_items configs))) ]).

(** [GET /list-endpoints] *)
Definition list_all_endpoints : Handler PyValue :=
  configs ← load_MCP_CONFIGS;
  mret (PyDict [
    ("endpoints", PyList (
       (λ '(endpoint, config),
          PyDict [
            ("endpoint", PyStr endpoint);
            ("server_name", PyStr (ServerInfo.name (MCPConfig.server config)));
            ("server_version", PyStr (ServerInfo.version (MCPConfig.server config)));
            ("server_description",
               from_option PyStr PyNone (ServerInfo.description (MCPConfig.server config)));
            ("tools", PyList (
               (λ tool, PyDict [
                  ("name", PyStr (Tool.name tool));
                  ("description", PyStr (Tool.description tool)) ])
               <$> MCPConfig.tools config)) ])
       <$> dict_items configs)) ]).

(** ** The request loop *)

(** The six routes registered with [@app.get], with their path parameters. *)
Inductive Request : Type :=
  | GetRoot
  | GetMcpConfig (endpoint : string)
  | GetMcpServerInfo (endpoint : string)
  | GetMcpTools (endpoint : string)
  | GetToolDescription (endpoint tool_name : string)
  | GetListEndpoints.

Inductive Response : Type :=
  | ConfigBody (config : MCPConfig.t)
  | ServerInfoBody (server : ServerInfo.t)
  | ToolsBody (tools : list Tool.t)
  | ToolBody (tool : Tool.t)
  | JsonBody (body : PyValue).

Definition handle (req : Request) : Handler Response :=
  match req with
  | GetRoot => body ← root; mret (JsonBody body)
  | GetMcpConfig endpoint => config ← get_mcp_config endpoint; mret (ConfigBody config)
  | GetMcpServerInfo endpoint =>
      server ← get_mcp_server_info endpoint; mret (ServerInfoBody server)
  | GetMcpTools endpoint => tools ← get_mcp_tools endpoint; mret (ToolsBody tools)
  | GetToolDescription endpoint tool_name =>
      tool ← get_tool_description endpoint tool_name; mret (ToolBody tool)
  | GetListEndpoints => body ← list_all_endpoints; mret (JsonBody body)
  end.

(** The registry left behind by serving a sequence of requests. *)
Fixpoint serve (reqs : list Request) (s : Registry) : Registry :=
  match reqs with
  | [] => s
  | req :: reqs' => serve reqs' (final_state (handle req) s)
  end.

(** The registry of a process that has served [history] since start-up. *)
Definition registry_after (history : list Request) : Registry :=
  serve history MCP_CONFIGS.

(** ** Expected outcomes *)

(** The 404 raised by all four keyed handlers for an unknown endpoint. *)
Definition unknown_endpoint (endpoint : string) (s : Registry) : PyExn :=
  HTTPException 404
    ("MCP端点 '" +:+ endpoint +:+ "' 不存在。可用的端点: "
       +:+ String.concat ", " (dict_keys s)).

(** The 404 raised for a tool name that no tool of the configuration has. *)
Definition unknown_tool (endpoint tool_name : string) (config : MCPConfig.t) : PyExn :=
  HTTPException 404
    ("工具 '" +:+ tool_name +:+ "' 在端点 '" +:+ endpoint
       +:+ "' 中不存在。可用的工具: "
       +:+ String.concat ", " (Tool.name <$> MCPConfig.tools config)).

(** An outcome is NotFound when it is an [HTTPException] with status 404. *)
Definition is_NotFound {A : Type} (o : Outcome A) : Prop :=
  ∃ detail, o = Raised (HTTPException 404 detail).

(** ** Observations on the seeded data and on responses *)

(** Every configuration of the registry has pairwise distinct tool names. *)
Definition tool_names_unique (s : Registry) : Prop :=
  Forall (λ entry, NoDup (Tool.name <$> MCPConfig.tools entry.2)) s.

#[export] Instance tool_names_unique_dec s : Decision (tool_names_unique s).
Proof. unfold tool_names_unique. apply _. Defined.

(** The [server.name] a key was seeded with. *)
Definition seeded_server_name (endpoint : string) : option string :=
  config ← dict_getitem MCP_CONFIGS endpoint;
  Some (ServerInfo.name (MCPConfig.server config)).

(** [tools_count] of a key as reported in [endpoints_info] by [GET /]. *)
Definition root_tools_count (endpoint : string) (s : Registry) : option PyValue :=
  match outcome root s with
  | Returned body =>
      info ← py_getitem body "endpoints_info";
      entry ← py_getitem info endpoint;
      py_getitem entry "tools_count"
  | Raised _ => None
  end.

(** [tool.inputSchema["required"]] *)
Definition required_fields (tool : Tool.t) : option PyValue :=
  dict_getitem (Tool.inputSchema tool) "required".

(** ** Reading responses *)

(** Applying a function to what a handler returned. *)
Definition outcome_map {A B : Type} (f : A → B) (o : Outcome A) : Outcome B :=
  match o with
  | Returned a => Returned (f a)
  | Raised e => Raised e
  end.

(** The handler returned, it did not raise. *)
Definition returns {A : Type} (o : Outcome A) : Prop := ∃ a, o = Returned a.

(** The handler returned, or raised an [HTTPException] with status 404. *)
Definition returns_or_404 {A : Type} (o : Outcome A) : Prop :=
  match o with
  | Returned _ => True
  | Raised (HTTPException status_code _) => status_code = 404%Z
  | Raised (KeyError _) => False
  end.

(** The elements of a value that is a [list]. *)
Definition py_list_items (v : PyValue) : option (list PyValue) :=
  match v with
  | PyList items => Some items
  | _ => None
  end.

(** [available_endpoints] of the [GET /] response. *)
Definition root_available_endpoints (s : Registry) : option (list PyValue) :=
  match outcome root s with
  | Returned body => py_getitem body "available_endpoints" ≫= py_list_items
  | Raised _ => None
  end.

(** [endpoints_info[endpoint]] of the [GET /] response. *)
Definition root_endpoint_info (endpoint : string) (s : Registry) : option PyValue :=
  match outcome root s with
  | Returned body => info ← py_getitem body "endpoints_info"; py_getitem info endpoint
  | Raised _ => None
  end.

(** [endpoints] of the [GET /list-endpoints] response. *)
Definition list_endpoints_entries (s : Registry) : option (list PyValue) :=
  match outcome list_all_endpoints s with
  | Returned body => py_getitem body "endpoints" ≫= py_list_items
  | Raised _ => None
  end.

(** The first element of [entries] whose ["endpoint"] is the given key. *)
Fixpoint entry_for_endpoint (endpoint : string) (entries : list PyValue) : option PyValue :=
  match entries with
  | [] => None
  | entry :: entries' =>
      match py_getitem entry "endpoint" with
      | Some (PyStr k) =>
          if decide (k = endpoint) then Some entry
          else entry_for_endpoint endpoint entries'
      | _ => entry_for_endpoint endpoint entries'
      end
  end.

(** The summary of one key in the [GET /list-endpoints] response. *)
Definition list_endpoints_entry (endpoint : string) (s : Registry) : option PyValue :=
  list_endpoints_entries s ≫= entry_for_endpoint endpoint.

(** The given field of every element of [summary["tools"]], in order. *)
Definition summary_tools_field (field : string) (summary : PyValue)
    : option (list PyValue) :=
  tools ← py_getitem summary "tools";
  items ← py_list_items tools;
  mapM (λ tool, py_getitem tool field) items.

(** A tool schema names only declared properties as required: its ["type"]
    is ["object"], its ["properties"] is a dictionary, and its ["required"]
    is a list of strings that are keys of ["properties"]. *)
Definition schema_well_formed (schema : Dict PyValue) : bool :=
  match dict_getitem schema "type",
        dict_getitem schema "properties",
        dict_getitem schema "required" with
  | Some (PyStr ty), Some (PyDict properties), Some (PyList required) =>
      bool_decide (ty = "object")
      && forallb (λ r, match r with
                       | PyStr field => dict_contains field properties
                       | _ => false
                       end) required
  | _, _, _ => false
  end.

(** All tool names of a registry, endpoint by endpoint. *)
Definition all_tool_names (s : Registry) : list string :=
  entry ← s; Tool.name <$> MCPConfig.tools entry.2.

(** ** The root logger and [configure_logger]

    [configure_logger] runs once at import time.  It reads the environment
    and configures the root logger of the [logging] module, whose state is
    its level and its list of handlers.  Handler objects are compared by
    identity, so each carries an identifier.  The model describes a call in
    which [logging.FileHandler] opens [app.log] successfully. *)

Inductive LogTarget : Type :=
  | StreamTarget
  | FileTarget (filename encoding : string).

Record LogHandler : Type := {
  handler_id : nat;
  handler_target : LogTarget;
  handler_level : Z;
  handler_formatter : option string
}.

Record RootLogger : Type := {
  logger_level : Z;
  logger_handlers : list LogHandler
}.

(** [logging.INFO] and [logging.NOTSET] *)
Definition INFO : Z := 20.
Definition NOTSET : Z := 0.

(** [logging.FileHandler(filename, encoding=encoding)], a new object. *)
Definition FileHandler (id : nat) (filename encoding : string) : LogHandler :=
  {| handler_id := id; handler_target := FileTarget filename encoding;
     handler_level := NOTSET; handler_formatter := None |}.

(** [handler.setLevel(level)] *)
Definition handler_setLevel (level : Z) (h : LogHandler) : LogHandler :=
  {| handler_id := handler_id h; handler_target := handler_target h;
     handler_level := level; handler_formatter := handler_formatter h |}.

(** [handler.setFormatter(logging.Formatter(fmt))] *)
Definition handler_setFormatter (fmt : string) (h : LogHandler) : LogHandler :=
  {| handler_id := handler_id h; handler_target := handler_target h;
     handler_level := handler_level h; handler_formatter := Some fmt |}.

(** [logger.setLevel(level)] *)
Definition logger_setLevel (level : Z) (logger : RootLogger) : RootLogger :=
  {| logger_level := level; logger_handlers := logger_handlers logger |}.

(** [logger.removeHandler(h)] on the handler list: [list.remove] of the first
    element that is [h], nothing when [h] is not in the list. *)
Fixpoint removeHandler (h : LogHandler) (hs : list LogHandler) : list LogHandler :=
  match hs with
  | [] => []
  | h' :: hs' =>
      if decide (handler_id h' = handler_id h) then hs'
      else h' :: removeHandler h hs'
  end.

(** [logger.addHandler(h)] on the handler list: appended unless already in. *)
Definition addHandler (h : LogHandler) (hs : list LogHandler) : list LogHandler :=
  if bool_decide (handler_id h ∈ handler_id <$> hs) then hs else hs ++ [h].

(** [for handler in logger.handlers: logger.removeHandler(handler)].  The
    loop iterates over the very list [removeHandler] mutates: the list
    iterator keeps an index [i], reads element [i] of the list as it is now
    and stops once [i] is not below its current length.  [steps] bounds the
    number of iterations; the list never grows, so its initial length is
    enough. *)
Fixpoint remove_handlers_while_iterating (steps i : nat) (hs : list LogHandler)
    : list LogHandler :=
  match steps with
  | 0 => hs
  | S steps' =>
      match hs !! i with
      | None => hs
      | Some h => remove_handlers_while_iterating steps' (S i) (removeHandler h hs)
      end
  end.

Section ConfigureLogger.
(** [str.lower] and [logging.basicConfig(level=..., format=...)] are taken as
    they come from the library. *)
Variable str_lower : string → string.
Variable basicConfig : Z → string → RootLogger → RootLogger.

(** [fresh] is the identity of the [FileHandler] object the call creates. *)
Definition configure_logger (environ : Dict string) (fresh : nat) (root : RootLogger)
    : RootLogger :=
  let profile := str_lower (default "dev" (dict_getitem environ "PROFILE")) in
  let log_format := "%(asctime)s %(levelname)s %(message)s" in
  if decide (profile = "prod") then
    let logger := logger_setLevel INFO root in
    let handlers :=
      remove_handlers_while_iterating
        (length (logger_handlers logger)) 0 (logger_handlers logger) in
    let file_handler := FileHandler fresh "app.log" "utf-8" in
    let file_handler := handler_setLevel INFO file_handler in
    let file_handler := handler_setFormatter log_format file_handler in
    {| logger_level := logger_level logger;
       logger_handlers := addHandler file_handler handlers |}
  else
    basicConfig INFO log_format root.
End ConfigureLogger.


(** [str.lower] on ASCII text: [A]..[Z] become [a]..[z]. *)
Definition ascii_lower_char (c : Ascii.ascii) : Ascii.ascii :=
  let n := Ascii.nat_of_ascii c in
  if (65 <=? n)%nat && (n <=? 90)%nat then Ascii.ascii_of_nat (n + 32) else c.

Fixpoint ascii_lower (s : string) : string :=
  match s with
  | EmptyString => EmptyString
  | String c s' => String (ascii_lower_char c) (ascii_lower s')
  end.

(** * Properties *)

(** ** Dictionary lookups *)

Section DictFacts.
Context {V : Type}.
Implicit Types (d : Dict V) (k : string) (v : V).

Lemma dict_contains_true k d : dict_contains k d = true ↔ k ∈ dict_keys d.
Proof. unfold dict_contains. apply bool_decide_eq_true. Qed.

Lemma dict_contains_false k d : dict_contains k d = false ↔ k ∉ dict_keys d.
Proof. unfold dict_contains. apply bool_decide_eq_false. Qed.

Lemma dict_getitem_None d k : dict_getitem d k = None ↔ k ∉ dict_keys d.
Proof.
  unfold dict_keys. induction d as [|[k' v'] d IH]; simpl.
  - split; [intros _; apply not_elem_of_nil | done].
  - rewrite not_elem_of_cons. case_decide as Hk.
    + split; [done | intros [Hne _]; by destruct Hne].
    + rewrite IH. split; [intros Hd; split; [congruence | done] | by intros [_ Hd]].
Qed.

Lemma dict_getitem_is_Some d k : is_Some (dict_getitem d k) ↔ k ∈ dict_keys d.
Proof.
  rewrite <- not_eq_None_Some, dict_getitem_None.
  split; [apply dec_stable | auto].
Qed.

Lemma dict_getitem_elem_of d k v : dict_getitem d k = Some v → (k, v) ∈ d.
Proof.
  induction d as [|[k' v'] d IH]; simpl; [done|].
  case_decide; intros Hget.
  - simplify_eq. apply list_elem_of_here.
  - apply list_elem_of_further, IH, Hget.
Qed.

(** With distinct keys every entry is the one a subscript finds. *)
Lemma dict_getitem_NoDup d k v :
  NoDup (dict_keys d) → (k, v) ∈ d → dict_getitem d k = Some v.
Proof.
  unfold dict_keys. induction d as [|[k' v'] d IH]; simpl.
  - intros _ Hin. by apply elem_of_nil in Hin.
  - rewrite NoDup_cons, elem_of_cons. intros [Hfresh Hnd] [Heq | Hin].
    + simplify_eq. by rewrite decide_True.
    + rewrite decide_False; [by apply IH|].
      intros ->. apply Hfresh. apply list_elem_of_fmap. by exists (k, v).
Qed.

Lemma dict_setitem_fresh k v d :
  k ∉ dict_keys d → dict_setitem k v d = d ++ [(k, v)].
Proof.
  unfold dict_keys. induction d as [|[k' v'] d IH]; simpl; [done|].
  rewrite not_elem_of_cons. intros [Hne Hfresh].
  rewrite decide_False by done. by rewrite IH.
Qed.

(** A comprehension over items with distinct keys lists them in order. *)
Lemma dict_comprehension_NoDup {X : Type} (f : X → string * V) (xs : list X) :
  NoDup (f <$> xs).*1 → dict_comprehension f xs = f <$> xs.
Proof.
  unfold dict_comprehension.
  enough (∀ acc : Dict V, NoDup (acc ++ (f <$> xs)).*1 →
            foldl (λ d x, dict_setitem (f x).1 (f x).2 d) acc xs = acc ++ (f <$> xs))
    as Hgen by (intros Hnd; apply (Hgen []), Hnd).
  induction xs as [|x xs IH]; intros acc Hnd; simpl.
  - by rewrite app_nil_r.
  - rewrite fmap_app, fmap_cons in Hnd.
    rewrite dict_setitem_fresh.
    + rewrite IH, <- app_assoc; [by destruct (f x)|].
      rewrite <- app_assoc, fmap_app. simpl. by destruct (f x).
    + apply NoDup_app in Hnd as (_ & Hdisj & _).
      intros Hin. apply (Hdisj _ Hin). apply list_elem_of_here.
Qed.
End DictFacts.

(** ** Running the handlers *)

(** Unfolds one handler down to the lookups it performs. *)
Ltac run_handler h :=
  unfold h, unknown_endpoint, unknown_tool, load_MCP_CONFIGS, subscript,
    mbind, handler_bind, mret, handler_ret, mthrow, handler_throw; simpl.

Section Runs.
Implicit Types (s : Registry) (endpoint tool_name : string).

Lemma get_mcp_config_absent s endpoint :
  endpoint ∉ dict_keys s →
  get_mcp_config endpoint s = (Raised (unknown_endpoint endpoint s), s).
Proof.
  intros Habs. run_handler get_mcp_config.
  apply dict_contains_false in Habs. by rewrite Habs.
Qed.

Lemma get_mcp_config_present s endpoint config :
  dict_getitem s endpoint = Some config →
  get_mcp_config endpoint s = (Returned config, s).
Proof.
  intros Hget. run_handler get_mcp_config.
  assert (dict_contains endpoint s = true) as ->
    by (apply dict_contains_true, dict_getitem_is_Some; eauto).
  by rewrite Hget.
Qed.

Lemma get_mcp_server_info_absent s endpoint :
  endpoint ∉ dict_keys s →
  get_mcp_server_info endpoint s = (Raised (unknown_endpoint endpoint s), s).
Proof.
  intros Habs. run_handler get_mcp_server_info.
  apply dict_contains_false in Habs. by rewrite Habs.
Qed.

Lemma get_mcp_server_info_present s endpoint config :
  dict_getitem s endpoint = Some config →
  get_mcp_server_info endpoint s = (Returned (MCPConfig.server config), s).
Proof.
  intros Hget. run_handler get_mcp_server_info.
  assert (dict_contains endpoint s = true) as ->
    by (apply dict_contains_true, dict_getitem_is_Some; eauto).
  by rewrite Hget.
Qed.

Lemma get_mcp_tools_absent s endpoint :
  endpoint ∉ dict_keys s →
  get_mcp_tools endpoint s = (Raised (unknown_endpoint endpoint s), s).
Proof.
  intros Habs. run_handler get_mcp_tools.
  apply dict_contains_false in Habs. by rewrite Habs.
Qed.

Lemma get_mcp_tools_present s endpoint config :
  dict_getitem s endpoint = Some config →
  get_mcp_tools endpoint s = (Returned (MCPConfig.tools config), s).
Proof.
  intros Hget. run_handler get_mcp_tools.
  assert (dict_contains endpoint s = true) as ->
    by (apply dict_contains_true, dict_getitem_is_Some; eauto).
  by rewrite Hget.
Qed.

Lemma get_tool_description_absent s endpoint tool_name :
  endpoint ∉ dict_keys s →
  get_tool_description endpoint tool_name s
  = (Raised (unknown_endpoint endpoint s), s).
Proof.
  intros Habs. run_handler get_tool_description.
  apply dict_contains_false in Habs. by rewrite Habs.
Qed.

Lemma get_tool_description_present s endpoint tool_name config :
  dict_getitem s endpoint = Some config →
  get_tool_description endpoint tool_name s
  = (match next_tool_named tool_name (MCPConfig.tools config) with
     | Some tool => Returned tool
     | None => Raised (unknown_tool endpoint tool_name config)
     end, s).
Proof.
  intros Hget. run_handler get_tool_description.
  assert (dict_contains endpoint s = true) as ->
    by (apply dict_contains_true, dict_getitem_is_Some; eauto).
  rewrite Hget. simpl.
  by destruct (next_tool_named tool_name (MCPConfig.tools config)).
Qed.
End Runs.

(** ** The generator search of [get_tool_description] *)

Section NextTool.
Implicit Types (tools : list Tool.t) (tool_name : string).

Lemma next_tool_named_None tool_name tools :
  next_tool_named tool_name tools = None
  ↔ ∀ t, t ∈ tools → Tool.name t ≠ tool_name.
Proof.
  induction tools as [|t tools IH]; simpl.
  - split; [|done]. intros _ t Hin. by apply elem_of_nil in Hin.
  - case_decide as Hname.
    + split; [done|]. intros Hall.
      destruct (Hall t); [apply list_elem_of_here | done].
    + rewrite IH. split.
      * intros Hall t' [-> | Hin]%elem_of_cons; auto.
      * intros Hall t' Hin. apply Hall. by apply list_elem_of_further.
Qed.

(** The search returns the first tool with the requested name: every tool
    in front of it has another name. *)
Lemma next_tool_named_first tool_name pre t post :
  Tool.name t = tool_name →
  (∀ t', t' ∈ pre → Tool.name t' ≠ tool_name) →
  next_tool_named tool_name (pre ++ t :: post) = Some t.
Proof.
  intros Hname. induction pre as [|t' pre IH]; intros Hpre; simpl.
  - by rewrite decide_True.
  - rewrite decide_False by (apply Hpre, list_elem_of_here).
    apply IH. intros t'' Hin. apply Hpre. by apply list_elem_of_further.
Qed.

Lemma next_tool_named_Some tool_name tools t :
  next_tool_named tool_name tools = Some t →
  ∃ pre post, tools = pre ++ t :: post ∧ Tool.name t = tool_name
              ∧ ∀ t', t' ∈ pre → Tool.name t' ≠ tool_name.
Proof.
  induction tools as [|t0 tools IH]; simpl; [done|].
  case_decide as Hname.
  - intros [= ->]. exists [], tools. split_and!; [done..|].
    intros t' Hin. by apply elem_of_nil in Hin.
  - intros (pre & post & -> & Ht & Hpre)%IH.
    exists (t0 :: pre), post. split_and!; [done..|].
    intros t' [-> | Hin]%elem_of_cons; auto.
Qed.

(** With distinct names, any listed tool is the one found under its name. *)
Lemma next_tool_named_NoDup tools t :
  NoDup (Tool.name <$> tools) → t ∈ tools →
  next_tool_named (Tool.name t) tools = Some t.
Proof.
  induction tools as [|t0 tools IH]; simpl.
  - intros _ Hin. by apply elem_of_nil in Hin.
  - rewrite NoDup_cons. intros [Hfresh Hnd] [-> | Hin]%elem_of_cons.
    + by rewrite decide_True.
    + rewrite decide_False; [by apply IH|].
      intros Heq. apply Hfresh. rewrite Heq. by apply list_elem_of_fmap_2.
Qed.
End NextTool.

(** ** The registry across requests *)

Section Frame.
Implicit Types (s : Registry) (endpoint tool_name : string).

Lemma root_final_state s : final_state root s = s.
Proof. reflexivity. Qed.

Lemma list_all_endpoints_final_state s : final_state list_all_endpoints s = s.
Proof. reflexivity. Qed.

Lemma get_mcp_config_final_state endpoint s :
  final_state (get_mcp_config endpoint) s = s.
Proof.
  unfold final_state. destruct (dict_getitem s endpoint) as [config|] eqn:Hget.
  - by rewrite (get_mcp_config_present _ _ _ Hget).
  - apply dict_getitem_None in Hget. by rewrite get_mcp_config_absent.
Qed.

Lemma get_mcp_server_info_final_state endpoint s :
  final_state (get_mcp_server_info endpoint) s = s.
Proof.
  unfold final_state. destruct (dict_getitem s endpoint) as [config|] eqn:Hget.
  - by rewrite (get_mcp_server_info_present _ _ _ Hget).
  - apply dict_getitem_None in Hget. by rewrite get_mcp_server_info_absent.
Qed.

Lemma get_mcp_tools_final_state endpoint s :
  final_state (get_mcp_tools endpoint) s = s.
Proof.
  unfold final_state. destruct (dict_getitem s endpoint) as [config|] eqn:Hget.
  - by rewrite (get_mcp_tools_present _ _ _ Hget).
  - apply dict_getitem_None in Hget. by rewrite get_mcp_tools_absent.
Qed.

Lemma get_tool_description_final_state endpoint tool_name s :
  final_state (get_tool_description endpoint tool_name) s = s.
Proof.
  unfold final_state. destruct (dict_getitem s endpoint) as [config|] eqn:Hget.
  - by rewrite (get_tool_description_present _ _ _ _ Hget).
  - apply dict_getitem_None in Hget. by rewrite get_tool_description_absent.
Qed.

Lemma bind_final_state {A B : Type} (h : Handler A) (f : A → B) s :
  final_state (a ← h; mret (f a)) s = final_state h s.
Proof.
  unfold final_state, mbind, handler_bind, mret, handler_ret.
  by destruct (h s) as [[a|e] s'].
Qed.

Lemma handle_final_state req s : final_state (handle req) s = s.
Proof.
  destruct req; simpl; rewrite bind_final_state.
  - apply root_final_state.
  - apply get_mcp_config_final_state.
  - apply get_mcp_server_info_final_state.
  - apply get_mcp_tools_final_state.
  - apply get_tool_description_final_state.
  - apply list_all_endpoints_final_state.
Qed.

Lemma serve_unchanged reqs s : serve reqs s = s.
Proof.
  revert s. induction reqs as [|req reqs IH]; intros s; simpl; [done|].
  by rewrite handle_final_state.
Qed.

Lemma registry_after_seeded history : registry_after history = MCP_CONFIGS.
Proof. apply serve_unchanged. Qed.

(** A handler that rebinds the global is visible to [final_state]: leaving the
    registry alone is a property of the six handlers above. *)
Lemma store_MCP_CONFIGS_final_state s s' : final_state (store_MCP_CONFIGS s') s = s'.
Proof. reflexivity. Qed.
End Frame.

(** ** The seeded data *)

Lemma MCP_CONFIGS_keys : dict_keys MCP_CONFIGS = ["weather"; "database"; "file"; "api"].
Proof. reflexivity. Qed.

Lemma MCP_CONFIGS_keys_NoDup : NoDup (dict_keys MCP_CONFIGS).
Proof. apply (bool_decide_unpack _). by vm_compute. Qed.

Lemma MCP_CONFIGS_tool_names_unique : tool_names_unique MCP_CONFIGS.
Proof. apply (bool_decide_unpack _). by vm_compute. Qed.

Lemma MCP_CONFIGS_server_names :
  (λ k, (k, seeded_server_name k)) <$> dict_keys MCP_CONFIGS
  = [ ("weather", Some "Weather MCP Server");
      ("database", Some "Database MCP Server");
      ("file", Some "File System MCP Server");
      ("api", Some "API Client MCP Server") ].
Proof. reflexivity. Qed.

Lemma tool_names_unique_lookup s endpoint config :
  tool_names_unique s → dict_getitem s endpoint = Some config →
  NoDup (Tool.name <$> MCPConfig.tools config).
Proof.
  intros Huniq Hget%dict_getitem_elem_of.
  unfold tool_names_unique in Huniq. rewrite Forall_forall in Huniq.
  apply (Huniq _ Hget).
Qed.

(** ** Relating [GET /] to the tool lists *)

Section RootCounts.
Implicit Types (s : Registry) (endpoint : string).

Lemma dict_getitem_fmap_value {A B : Type} (g : string → A → B) (d : Dict A) k :
  dict_getitem ((λ '(k', v), (k', g k' v)) <$> d) k = g k <$> dict_getitem d k.
Proof.
  induction d as [|[k' v] d IH]; simpl; [done|].
  case_decide; [by subst | apply IH].
Qed.

Lemma root_tools_count_NoDup s endpoint :
  NoDup (dict_keys s) →
  root_tools_count endpoint s
  = (λ config, PyInt (Z.of_nat (length (MCPConfig.tools config))))
      <$> dict_getitem s endpoint.
Proof.
  intros Hnd. unfold root_tools_count, outcome, root. simpl.
  rewrite dict_comprehension_NoDup.
  - unfold dict_items.
    rewrite (dict_getitem_fmap_value (λ _ config, PyDict _)).
    by destruct (dict_getitem s endpoint).
  - unfold dict_items, dict_keys in *. rewrite <- list_fmap_compose.
    erewrite list_fmap_ext; [exact Hnd|]. by intros _ [k v] _.
Qed.
End RootCounts.

(** ** Sample runs *)

Example root_on_seeded_registry :
  outcome root MCP_CONFIGS
  = Returned (PyDict [
      ("message", PyStr "Dynamic MCP Demo Server");
      ("available_endpoints",
         PyList [PyStr "weather"; PyStr "database"; PyStr "file"; PyStr "api"]);
      ("endpoints_info", PyDict [
         ("weather", PyDict [("server_name", PyStr "Weather MCP Server");
                             ("tools_count", PyInt 2)]);
         ("database", PyDict [("server_name", PyStr "Database MCP Server");
                              ("tools_count", PyInt 3)]);
         ("file", PyDict [("server_name", PyStr "File System MCP Server");
                          ("tools_count", PyInt 3)]);
         ("api", PyDict [("server_name", PyStr "API Client MCP Server");
                         ("tools_count", PyInt 2)]) ]) ]).
Proof. reflexivity. Qed.

Example list_all_endpoints_on_small_registry :
  outcome list_all_endpoints
    [("echo", MCPConfig.mk (ServerInfo.mk "Echo" "0.1" None)
                [Tool.mk "say" "repeat the input" [("type", PyStr "object")]])]
  = Returned (PyDict [
      ("endpoints", PyList [
         PyDict [("endpoint", PyStr "echo");
                 ("server_name", PyStr "Echo");
                 ("server_version", PyStr "0.1");
                 ("server_description", PyNone);
                 ("tools", PyList [
                    PyDict [("name", PyStr "say");
                            ("description", PyStr "repeat the input")] ])] ]) ]).
Proof. reflexivity. Qed.

Example get_mcp_server_info_on_seeded_registry :
  get_mcp_server_info "api" MCP_CONFIGS
  = (Returned (ServerInfo.mk "API Client MCP Server" "1.0.0"
                 (Some "提供HTTP API调用相关的工具")), MCP_CONFIGS).
Proof. reflexivity. Qed.

(** When two tools of a configuration share a name, the search stops at the
    first; the second is listed by [get_mcp_tools] but never returned by
    [get_tool_description]. *)
Example first_of_two_equal_names_is_returned :
  let first := Tool.mk "dup" "first" [] in
  let second := Tool.mk "dup" "second" [] in
  let s := [("k", MCPConfig.mk (ServerInfo.mk "K" "1" None) [first; second])] in
  outcome (get_mcp_tools "k") s = Returned [first; second]
  ∧ outcome (get_tool_description "k" (Tool.name second)) s = Returned first
  ∧ first ≠ second.
Proof. by split_and!. Qed.

(** An empty registry lists no key in its 404. *)
Example unknown_key_on_empty_registry :
  outcome (get_mcp_config "weather") []
  = Raised (HTTPException 404 "MCP端点 'weather' 不存在。可用的端点: ").
Proof. reflexivity. Qed.

(** * The specification's claims *)

(** C1.  For every endpoint key and tool name, against any registry:
    [get_tool_description] answers NotFound when the key is absent; it
    answers NotFound when the key is present and no tool of the key's
    configuration has exactly that name; otherwise it returns the first tool
    of the configuration's ordered list whose name equals the requested one
    (every tool in front of it has another name). *)
Theorem get_tool_description_first_match (s : Registry) (endpoint tool_name : string) :
  (endpoint ∉ dict_keys s →
     is_NotFound (outcome (get_tool_description endpoint tool_name) s))
  ∧ (endpoint ∈ dict_keys s →
     ∃ config, dict_getitem s endpoint = Some config
       ∧ ((∀ t, t ∈ MCPConfig.tools config → Tool.name t ≠ tool_name) →
            is_NotFound (outcome (get_tool_description endpoint tool_name) s))
       ∧ (∀ pre t post,
            MCPConfig.tools config = pre ++ t :: post →
            Tool.name t = tool_name →
            (∀ t', t' ∈ pre → Tool.name t' ≠ tool_name) →
            outcome (get_tool_description endpoint tool_name) s = Returned t)).
Proof.
  split.
  - intros Habs. unfold outcome. rewrite get_tool_description_absent by done.
    by eexists.
  - intros [config Hget]%dict_getitem_is_Some. exists config.
    unfold outcome. rewrite (get_tool_description_present _ _ _ _ Hget). simpl.
    split_and!; [done| |].
    + intros Hnone%next_tool_named_None. rewrite Hnone. by eexists.
    + intros pre t post -> Hname Hpre.
      by rewrite (next_tool_named_first _ _ _ _ Hname Hpre).
Qed.

Lemma get_tool_description_first_match_witness :
  is_NotFound (outcome (get_tool_description "mail" "send") MCP_CONFIGS)
  ∧ is_NotFound (outcome (get_tool_description "file" "delete_file") MCP_CONFIGS)
  ∧ ∃ t, Tool.name t = "write_file"
      ∧ outcome (get_tool_description "file" "write_file") MCP_CONFIGS = Returned t.
Proof.
  split; [|split].
  - apply (get_tool_description_first_match MCP_CONFIGS "mail" "send").
    apply (bool_decide_unpack _). by vm_compute.
  - destruct (get_tool_description_first_match MCP_CONFIGS "file" "delete_file")
      as [_ Hpresent].
    destruct Hpresent as (config & Hget & Hnone & _).
    { apply (bool_decide_unpack _). by vm_compute. }
    apply Hnone. vm_compute in Hget. injection Hget as <-.
    intros t Hin. simpl in Hin.
    repeat (apply elem_of_cons in Hin as [-> | Hin]; [by vm_compute|]).
    by apply elem_of_nil in Hin.
  - destruct (get_tool_description_first_match MCP_CONFIGS "file" "write_file")
      as [_ Hpresent].
    destruct Hpresent as (config & Hget & _ & Hfirst).
    { apply (bool_decide_unpack _). by vm_compute. }
    vm_compute in Hget. injection Hget as <-.
    eexists. split; last first.
    + eapply (Hfirst [_] _ [_]); [reflexivity | reflexivity |].
      intros t Hin. apply list_elem_of_singleton in Hin as ->. by vm_compute.
    + reflexivity.
Defined.

(** C2.  For every key that is not in the registry, each of the four lookup
    handlers ([get_mcp_config], [get_mcp_server_info], [get_mcp_tools],
    [get_tool_description]) raises an [HTTPException] with status 404 whose
    detail ends with the registered keys, all of them and only them, in
    registry order and separated by [", "]. *)
Theorem unknown_key_lists_registered_keys (s : Registry) (endpoint tool_name : string) :
  endpoint ∉ dict_keys s →
  let detail :=
    "MCP端点 '" +:+ endpoint +:+ "' 不存在。可用的端点: "
      +:+ String.concat ", " (dict_keys s) in
  outcome (get_mcp_config endpoint) s = Raised (HTTPException 404 detail)
  ∧ outcome (get_mcp_server_info endpoint) s = Raised (HTTPException 404 detail)
  ∧ outcome (get_mcp_tools endpoint) s = Raised (HTTPException 404 detail)
  ∧ outcome (get_tool_description endpoint tool_name) s
    = Raised (HTTPException 404 detail).
Proof.
  intros Habs detail. unfold outcome.
  rewrite get_mcp_config_absent, get_mcp_server_info_absent,
    get_mcp_tools_absent, get_tool_description_absent by done.
  done.
Qed.

Lemma unknown_key_lists_registered_keys_witness :
  let detail := "MCP端点 'mail' 不存在。可用的端点: weather, database, file, api" in
  outcome (get_mcp_config "mail") MCP_CONFIGS = Raised (HTTPException 404 detail)
  ∧ outcome (get_mcp_server_info "mail") MCP_CONFIGS = Raised (HTTPException 404 detail)
  ∧ outcome (get_mcp_tools "mail") MCP_CONFIGS = Raised (HTTPException 404 detail)
  ∧ outcome (get_tool_description "mail" "send") MCP_CONFIGS
    = Raised (HTTPException 404 detail).
Proof.
  apply (unknown_key_lists_registered_keys MCP_CONFIGS "mail" "send").
  apply (bool_decide_unpack _). by vm_compute.
Defined.

(** C3.  At any point of the process's life, for every key registered in the
    registry, [get_mcp_config] returns a configuration (it does not raise)
    and the configuration's [server.name] is the name that key was seeded
    with in the [MCP_CONFIGS] literal. *)
Theorem get_mcp_config_seeded_name (history : list Request) (endpoint : string) :
  endpoint ∈ dict_keys (registry_after history) →
  ∃ config,
    outcome (get_mcp_config endpoint) (registry_after history) = Returned config
    ∧ seeded_server_name endpoint = Some (ServerInfo.name (MCPConfig.server config)).
Proof.
  rewrite registry_after_seeded.
  intros [config Hget]%dict_getitem_is_Some. exists config. split.
  - unfold outcome. by rewrite (get_mcp_config_present _ _ _ Hget).
  - unfold seeded_server_name. by rewrite Hget.
Qed.

Lemma get_mcp_config_seeded_name_witness :
  ∃ config,
    outcome (get_mcp_config "database")
      (registry_after [GetMcpTools "mail"; GetRoot]) = Returned config
    ∧ Some "Database MCP Server" = Some (ServerInfo.name (MCPConfig.server config)).
Proof.
  apply (get_mcp_config_seeded_name [GetMcpTools "mail"; GetRoot] "database").
  apply (bool_decide_unpack _). by vm_compute.
Defined.

(** C4.  For every registered key, the [tools_count] reported for that key in
    [endpoints_info] by [GET /] is the length of the tool list returned by
    [GET /mcp/{key}/tools] for the same key. *)
Theorem root_tools_count_matches_tools (history : list Request) (endpoint : string) :
  endpoint ∈ dict_keys (registry_after history) →
  ∃ tools,
    outcome (get_mcp_tools endpoint) (registry_after history) = Returned tools
    ∧ root_tools_count endpoint (registry_after history)
      = Some (PyInt (Z.of_nat (length tools))).
Proof.
  rewrite registry_after_seeded.
  intros [config Hget]%dict_getitem_is_Some. exists (MCPConfig.tools config). split.
  - unfold outcome. by rewrite (get_mcp_tools_present _ _ _ Hget).
  - rewrite root_tools_count_NoDup by apply MCP_CONFIGS_keys_NoDup.
    by rewrite Hget.
Qed.

Lemma root_tools_count_matches_tools_witness :
  ∃ tools,
    outcome (get_mcp_tools "database") (registry_after [GetListEndpoints])
    = Returned tools
    ∧ root_tools_count "database" (registry_after [GetListEndpoints])
      = Some (PyInt (Z.of_nat (length tools))).
Proof.
  apply (root_tools_count_matches_tools [GetListEndpoints] "database").
  apply (bool_decide_unpack _). by vm_compute.
Defined.

(** C5.  [get_tool_description("database", "list_tables")] returns a tool,
    and the ["required"] entry of its input schema is the empty list. *)
Theorem list_tables_requires_nothing (history : list Request) :
  ∃ tool,
    outcome (get_tool_description "database" "list_tables") (registry_after history)
    = Returned tool
    ∧ Tool.name tool = "list_tables"
    ∧ required_fields tool = Some (PyList []).
Proof. rewrite registry_after_seeded. eexists. by split_and!. Qed.

(** C6.  [get_tool_description("file", "write_file")] returns a tool, and the
    ["required"] entry of its input schema is the list ["path", "content"],
    in that order. *)
Theorem write_file_requires_path_content (history : list Request) :
  ∃ tool,
    outcome (get_tool_description "file" "write_file") (registry_after history)
    = Returned tool
    ∧ Tool.name tool = "write_file"
    ∧ required_fields tool = Some (PyList [PyStr "path"; PyStr "content"]).
Proof. rewrite registry_after_seeded. eexists. by split_and!. Qed.

(** C7.  [GET /mcp/weather/tools/nonexistent_tool] raises an [HTTPException]
    with status 404 whose detail lists [get_weather, get_forecast] as the
    tools of the [weather] key. *)
Theorem weather_unknown_tool_lists_tools (history : list Request) :
  outcome (get_tool_description "weather" "nonexistent_tool") (registry_after history)
  = Raised (HTTPException 404
      "工具 'nonexistent_tool' 在端点 'weather' 中不存在。可用的工具: get_weather, get_forecast")
  ∧ outcome (handle (GetToolDescription "weather" "nonexistent_tool"))
      (registry_after history)
    = Raised (HTTPException 404
        ("工具 'nonexistent_tool' 在端点 'weather' 中不存在。可用的工具: "
           +:+ String.concat ", " ["get_weather"; "get_forecast"])).
Proof. rewrite registry_after_seeded. by split. Qed.

(** C8.  Within every configuration of the registry the tool names are
    pairwise distinct.  This holds of the seeded [MCP_CONFIGS], every request
    preserves it because it leaves the registry as it found it, and so it
    holds after any history of requests. *)
Theorem tool_names_unique_invariant :
  tool_names_unique MCP_CONFIGS
  ∧ (∀ (req : Request) (s : Registry),
       tool_names_unique s → tool_names_unique (final_state (handle req) s))
  ∧ (∀ history : list Request, tool_names_unique (registry_after history))
  ∧ (∀ (history : list Request) (endpoint : string) (config : MCPConfig.t),
       dict_getitem (registry_after history) endpoint = Some config →
       NoDup (Tool.name <$> MCPConfig.tools config)).
Proof.
  split_and!.
  - apply MCP_CONFIGS_tool_names_unique.
  - intros req s Huniq. by rewrite handle_final_state.
  - intros history. rewrite registry_after_seeded.
    apply MCP_CONFIGS_tool_names_unique.
  - intros history endpoint config. rewrite registry_after_seeded.
    apply tool_names_unique_lookup, MCP_CONFIGS_tool_names_unique.
Qed.

Lemma tool_names_unique_invariant_witness :
  tool_names_unique (final_state (handle (GetMcpConfig "api")) MCP_CONFIGS)
  ∧ ∃ config,
      dict_getitem (registry_after [GetRoot]) "api" = Some config
      ∧ NoDup (Tool.name <$> MCPConfig.tools config).
Proof.
  destruct tool_names_unique_invariant as (Hinit & Hstep & _ & Hlookup). split.
  - apply (Hstep (GetMcpConfig "api") MCP_CONFIGS), Hinit.
  - eexists. split; [reflexivity|].
    apply (Hlookup [GetRoot] "api"). reflexivity.
Defined.

(** C9.  Every handler is a pure read of the registry: whatever the registry
    and the path parameters, and whether the handler returns or raises, the
    registry after the call is the registry before it. *)
Theorem handlers_leave_registry_unchanged (s : Registry) (endpoint tool_name : string) :
  final_state (get_mcp_config endpoint) s = s
  ∧ final_state (get_mcp_server_info endpoint) s = s
  ∧ final_state (get_mcp_tools endpoint) s = s
  ∧ final_state (get_tool_description endpoint tool_name) s = s
  ∧ final_state root s = s
  ∧ final_state list_all_endpoints s = s.
Proof.
  split_and!.
  - apply get_mcp_config_final_state.
  - apply get_mcp_server_info_final_state.
  - apply get_mcp_tools_final_state.
  - apply get_tool_description_final_state.
  - apply root_final_state.
  - apply list_all_endpoints_final_state.
Qed.

(** C10.  For every registered key, [get_mcp_tools] returns the key's tool
    list, and for every tool [t] of that list
    [get_tool_description(key, t.name)] returns exactly [t]. *)
Theorem get_tools_get_tool_roundtrip (history : list Request) (endpoint : string) :
  endpoint ∈ dict_keys (registry_after history) →
  ∃ tools,
    outcome (get_mcp_tools endpoint) (registry_after history) = Returned tools
    ∧ ∀ t, t ∈ tools →
        outcome (get_tool_description endpoint (Tool.name t)) (registry_after history)
        = Returned t.
Proof.
  rewrite registry_after_seeded.
  intros [config Hget]%dict_getitem_is_Some. exists (MCPConfig.tools config). split.
  - unfold outcome. by rewrite (get_mcp_tools_present _ _ _ Hget).
  - intros t Hin. unfold outcome.
    rewrite (get_tool_description_present _ _ _ _ Hget). simpl.
    rewrite next_tool_named_NoDup; [done| |done].
    eapply tool_names_unique_lookup; [apply MCP_CONFIGS_tool_names_unique | done].
Qed.

Lemma get_tools_get_tool_roundtrip_witness :
  ∃ tools,
    outcome (get_mcp_tools "weather") (registry_after [GetRoot]) = Returned tools
    ∧ ∀ t, t ∈ tools →
        outcome (get_tool_description "weather" (Tool.name t)) (registry_after [GetRoot])
        = Returned t.
Proof.
  apply (get_tools_get_tool_roundtrip [GetRoot] "weather").
  apply (bool_decide_unpack _). by vm_compute.
Defined.

(** * Further properties of the handlers *)

(** ** Shared lemmas *)

Section HandlerFacts.
Implicit Types (s : Registry) (endpoint tool_name : string).

Lemma get_mcp_config_outcome s endpoint :
  outcome (get_mcp_config endpoint) s
  = match dict_getitem s endpoint with
    | Some config => Returned config
    | None => Raised (unknown_endpoint endpoint s)
    end.
Proof.
  unfold outcome. destruct (dict_getitem s endpoint) as [config|] eqn:Hget.
  - by rewrite (get_mcp_config_present _ _ _ Hget).
  - apply dict_getitem_None in Hget. by rewrite get_mcp_config_absent.
Qed.

Lemma get_mcp_server_info_outcome s endpoint :
  outcome (get_mcp_server_info endpoint) s
  = match dict_getitem s endpoint with
    | Some config => Returned (MCPConfig.server config)
    | None => Raised (unknown_endpoint endpoint s)
    end.
Proof.
  unfold outcome. destruct (dict_getitem s endpoint) as [config|] eqn:Hget.
  - by rewrite (get_mcp_server_info_present _ _ _ Hget).
  - apply dict_getitem_None in Hget. by rewrite get_mcp_server_info_absent.
Qed.

Lemma get_mcp_tools_outcome s endpoint :
  outcome (get_mcp_tools endpoint) s
  = match dict_getitem s endpoint with
    | Some config => Returned (MCPConfig.tools config)
    | None => Raised (unknown_endpoint endpoint s)
    end.
Proof.
  unfold outcome. destruct (dict_getitem s endpoint) as [config|] eqn:Hget.
  - by rewrite (get_mcp_tools_present _ _ _ Hget).
  - apply dict_getitem_None in Hget. by rewrite get_mcp_tools_absent.
Qed.

Lemma get_tool_description_outcome s endpoint tool_name :
  outcome (get_tool_description endpoint tool_name) s
  = match dict_getitem s endpoint with
    | Some config =>
        match next_tool_named tool_name (MCPConfig.tools config) with
        | Some tool => Returned tool
        | None => Raised (unknown_tool endpoint tool_name config)
        end
    | None => Raised (unknown_endpoint endpoint s)
    end.
Proof.
  unfold outcome. destruct (dict_getitem s endpoint) as [config|] eqn:Hget.
  - by rewrite (get_tool_description_present _ _ _ _ Hget).
  - apply dict_getitem_None in Hget. by rewrite get_tool_description_absent.
Qed.

Lemma next_tool_named_is_Some tool_name (tools : list Tool.t) :
  is_Some (next_tool_named tool_name tools) ↔ tool_name ∈ Tool.name <$> tools.
Proof.
  induction tools as [|t tools IH]; simpl.
  - split; [by intros [? ?] | by intros ?%elem_of_nil].
  - rewrite elem_of_cons. case_decide as Hname.
    + split; [by left | by eexists].
    + rewrite IH. split; [by right | by intros [? | ?]].
Qed.

Lemma prefix_append (p rest : string) : String.prefix p (p +:+ rest) = true.
Proof.
  induction p as [|c p IH]; simpl; [by destruct rest|].
  by destruct (Ascii.ascii_dec c c).
Qed.

Lemma next_tool_named_elem_of tool_name (tools : list Tool.t) t :
  next_tool_named tool_name tools = Some t → t ∈ tools ∧ Tool.name t = tool_name.
Proof.
  intros (pre & post & -> & Hname & _)%next_tool_named_Some. split; [|done].
  apply elem_of_app. right. apply list_elem_of_here.
Qed.
End HandlerFacts.

(** ** How the keyed handlers relate *)

(** X1.  For any registry and key, [get_mcp_server_info] and [get_mcp_tools]
    answer with the [server] and the [tools] of what [get_mcp_config]
    answers, and raise the very exception it raises. *)
Theorem server_info_and_tools_project_config (s : Registry) (endpoint : string) :
  outcome (get_mcp_server_info endpoint) s
  = outcome_map MCPConfig.server (outcome (get_mcp_config endpoint) s)
  ∧ outcome (get_mcp_tools endpoint) s
    = outcome_map MCPConfig.tools (outcome (get_mcp_config endpoint) s).
Proof.
  rewrite get_mcp_server_info_outcome, get_mcp_tools_outcome, get_mcp_config_outcome.
  by destruct (dict_getitem s endpoint).
Qed.

(** X2.  For any registry and any path parameters, a keyed handler either
    returns or raises an [HTTPException] with status 404: the subscript
    behind the membership test never raises [KeyError] and no other status
    is used.  The two listing handlers always return. *)
Theorem handlers_raise_only_404 (s : Registry) (endpoint tool_name : string) :
  returns_or_404 (outcome (get_mcp_config endpoint) s)
  ∧ returns_or_404 (outcome (get_mcp_server_info endpoint) s)
  ∧ returns_or_404 (outcome (get_mcp_tools endpoint) s)
  ∧ returns_or_404 (outcome (get_tool_description endpoint tool_name) s)
  ∧ returns (outcome root s)
  ∧ returns (outcome list_all_endpoints s).
Proof.
  rewrite get_mcp_config_outcome, get_mcp_server_info_outcome,
    get_mcp_tools_outcome, get_tool_description_outcome.
  split_and!; try by eexists.
  all: destruct (dict_getitem s endpoint) as [config|]; simpl; try done.
  by destruct (next_tool_named tool_name (MCPConfig.tools config)).
Qed.

(** X3.  For any registry, a tool returned by [get_tool_description] is a
    member of the list [get_mcp_tools] returns for the same key and carries
    the requested name; conversely every name occurring in that list is
    answered with a tool. *)
Theorem get_tool_description_returns_listed_tools
    (s : Registry) (endpoint tool_name : string) :
  (∀ t, outcome (get_tool_description endpoint tool_name) s = Returned t →
     ∃ tools, outcome (get_mcp_tools endpoint) s = Returned tools
       ∧ t ∈ tools ∧ Tool.name t = tool_name)
  ∧ (∀ tools, outcome (get_mcp_tools endpoint) s = Returned tools →
       tool_name ∈ Tool.name <$> tools →
       returns (outcome (get_tool_description endpoint tool_name) s)).
Proof.
  rewrite get_tool_description_outcome, get_mcp_tools_outcome.
  destruct (dict_getitem s endpoint) as [config|]; [|by split].
  split.
  - intros t Hret. exists (MCPConfig.tools config). split; [done|].
    apply next_tool_named_elem_of.
    by destruct (next_tool_named tool_name (MCPConfig.tools config)); simplify_eq.
  - intros tools [= <-] [t Hfound]%next_tool_named_is_Some.
    rewrite Hfound. by exists t.
Qed.

Lemma get_tool_description_returns_listed_tools_witness :
  (∃ tools, outcome (get_mcp_tools "api") MCP_CONFIGS = Returned tools
     ∧ "http_post" ∈ Tool.name <$> tools)
  ∧ returns (outcome (get_tool_description "api" "http_post") MCP_CONFIGS).
Proof.
  destruct (get_tool_description_returns_listed_tools MCP_CONFIGS "api" "http_post")
    as [Hsound Hcomplete].
  assert (returns (outcome (get_tool_description "api" "http_post") MCP_CONFIGS))
    as Hret.
  { eapply Hcomplete; [reflexivity|]. apply (bool_decide_unpack _). by vm_compute. }
  split; [|exact Hret]. destruct Hret as [t Ht].
  destruct (Hsound t Ht) as (tools & Htools & Hin & Hname).
  exists tools. split; [done|]. rewrite <- Hname. by apply list_elem_of_fmap_2.
Defined.

(** X4.  For any registry: when the key is registered and no tool of its list
    has the requested name, [get_tool_description] raises 404 with a detail
    that names the tool, names the key and ends with the names of the key's
    tools as [get_mcp_tools] lists them, in order and joined by [", "]. *)
Theorem unknown_tool_lists_tool_names
    (s : Registry) (endpoint tool_name : string) (tools : list Tool.t) :
  outcome (get_mcp_tools endpoint) s = Returned tools →
  tool_name ∉ Tool.name <$> tools →
  outcome (get_tool_description endpoint tool_name) s
  = Raised (HTTPException 404
      ("工具 '" +:+ tool_name +:+ "' 在端点 '" +:+ endpoint
         +:+ "' 中不存在。可用的工具: "
         +:+ String.concat ", " (Tool.name <$> tools))).
Proof.
  rewrite get_tool_description_outcome, get_mcp_tools_outcome.
  destruct (dict_getitem s endpoint) as [config|]; [|done].
  intros [= <-] Hnot.
  destruct (next_tool_named tool_name (MCPConfig.tools config)) as [t|] eqn:Hfind.
  - destruct Hnot. apply next_tool_named_is_Some. by exists t.
  - done.
Qed.

Lemma unknown_tool_lists_tool_names_witness :
  outcome (get_tool_description "empty" "anything")
    [("empty", MCPConfig.mk (ServerInfo.mk "Empty" "0" None) [])]
  = Raised (HTTPException 404 "工具 'anything' 在端点 'empty' 中不存在。可用的工具: ").
Proof.
  apply (unknown_tool_lists_tool_names
           [("empty", MCPConfig.mk (ServerInfo.mk "Empty" "0" None) [])]
           "empty" "anything" []).
  - reflexivity.
  - apply not_elem_of_nil.
Defined.

(** X5.  For any registry, the detail of a 404 raised by
    [get_tool_description] tells which of the two is missing: it begins with
    [MCP端点 '] when the key is not registered, and with [工具 '] when the key
    is registered and the tool name is not. *)
Theorem not_found_detail_tells_what_is_missing
    (s : Registry) (endpoint tool_name detail : string) :
  outcome (get_tool_description endpoint tool_name) s
  = Raised (HTTPException 404 detail) →
  (endpoint ∉ dict_keys s →
     String.prefix "MCP端点 '" detail = true ∧ String.prefix "工具 '" detail = false)
  ∧ (endpoint ∈ dict_keys s →
     String.prefix "工具 '" detail = true ∧ String.prefix "MCP端点 '" detail = false).
Proof.
  rewrite get_tool_description_outcome. unfold unknown_tool, unknown_endpoint.
  destruct (dict_getitem s endpoint) as [config|] eqn:Hget.
  - destruct (next_tool_named tool_name (MCPConfig.tools config)); [done|].
    intros [= <-]. split.
    + intros Habs. apply dict_getitem_None in Habs. congruence.
    + intros _. split; [apply prefix_append | reflexivity].
  - intros [= <-]. split.
    + intros _. split; [apply prefix_append | reflexivity].
    + intros Hin%dict_getitem_is_Some. rewrite Hget in Hin. by destruct Hin.
Qed.

Lemma not_found_detail_tells_what_is_missing_witness :
  (String.prefix "MCP端点 '" "MCP端点 'mail' 不存在。可用的端点: weather, database, file, api"
   = true)
  ∧ (String.prefix "工具 '"
       "工具 'send' 在端点 'api' 中不存在。可用的工具: http_get, http_post" = true).
Proof.
  split.
  - refine (proj1 (proj1 (not_found_detail_tells_what_is_missing
      MCP_CONFIGS "mail" "send" _ eq_refl) _)).
    apply (bool_decide_unpack _). by vm_compute.
  - refine (proj1 (proj2 (not_found_detail_tells_what_is_missing
      MCP_CONFIGS "api" "send" _ eq_refl) _)).
    apply (bool_decide_unpack _). by vm_compute.
Defined.

(** ** The listing handlers against the keyed ones *)

Section Listings.
Implicit Types (s : Registry) (endpoint : string).

Lemma mapM_fmap_read {A B C : Type} (g : A → B) (f : B → option C) (h : A → C)
    (l : list A) :
  (∀ a, f (g a) = Some (h a)) → mapM f (g <$> l) = Some (h <$> l).
Proof.
  intros Hread. induction l as [|a l IH]; csimpl; [done|].
  rewrite Hread. csimpl.
  exact (f_equal (λ o, o ≫= λ k, mret (h a :: k)) IH).
Qed.

Lemma root_available_endpoints_keys s :
  root_available_endpoints s = Some (PyStr <$> dict_keys s).
Proof. reflexivity. Qed.

Lemma list_endpoints_entries_endpoints s :
  list_endpoints_entries s ≫= mapM (λ entry, py_getitem entry "endpoint")
  = Some (PyStr <$> dict_keys s).
Proof.
  unfold list_endpoints_entries, outcome, list_all_endpoints, dict_items, dict_keys.
  simpl. rewrite (mapM_fmap_read _ _ (λ entry, PyStr entry.1)).
  - by rewrite <- list_fmap_compose.
  - by intros [k config].
Qed.

Lemma root_endpoint_info_NoDup s endpoint :
  NoDup (dict_keys s) →
  root_endpoint_info endpoint s
  = (λ config, PyDict [
       ("server_name", PyStr (ServerInfo.name (MCPConfig.server config)));
       ("tools_count", PyInt (Z.of_nat (length (MCPConfig.tools config)))) ])
    <$> dict_getitem s endpoint.
Proof.
  intros Hnd. unfold root_endpoint_info, outcome, root. simpl.
  rewrite dict_comprehension_NoDup.
  - unfold dict_items.
    by rewrite (dict_getitem_fmap_value (λ _ config, PyDict _)).
  - unfold dict_items, dict_keys in *. rewrite <- list_fmap_compose.
    erewrite list_fmap_ext; [exact Hnd|]. by intros _ [k v] _.
Qed.

Lemma list_endpoints_entry_lookup s endpoint :
  list_endpoints_entry endpoint s
  = (λ config, PyDict [
       ("endpoint", PyStr endpoint);
       ("server_name", PyStr (ServerInfo.name (MCPConfig.server config)));
       ("server_version", PyStr (ServerInfo.version (MCPConfig.server config)));
       ("server_description",
          from_option PyStr PyNone (ServerInfo.description (MCPConfig.server config)));
       ("tools", PyList (
          (λ tool, PyDict [
             ("name", PyStr (Tool.name tool));
             ("description", PyStr (Tool.description tool)) ])
          <$> MCPConfig.tools config)) ])
    <$> dict_getitem s endpoint.
Proof.
  unfold list_endpoints_entry, list_endpoints_entries, outcome,
    list_all_endpoints, dict_items.
  simpl. induction s as [|[k config] s IH]; simpl; [done|].
  case_decide as Hk; [by subst | apply IH].
Qed.
End Listings.

(** X6.  For any registry, a key is listed in [available_endpoints] of
    [GET /] exactly when [get_mcp_config] returns for it. *)
Theorem root_lists_exactly_the_served_keys (s : Registry) (endpoint : string) :
  ∃ items,
    root_available_endpoints s = Some items
    ∧ (PyStr endpoint ∈ items ↔ returns (outcome (get_mcp_config endpoint) s)).
Proof.
  exists (PyStr <$> dict_keys s). split; [apply root_available_endpoints_keys|].
  rewrite get_mcp_config_outcome, list_elem_of_fmap. split.
  - intros (k & [= <-] & [config Hget]%dict_getitem_is_Some).
    rewrite Hget. by exists config.
  - intros [config Hret]. exists endpoint. split; [done|].
    apply dict_getitem_is_Some.
    destruct (dict_getitem s endpoint); [by eexists | done].
Qed.

(** X7.  For any registry with distinct keys, [endpoints_info] of [GET /] has
    an entry for a key exactly when the key is registered, and the entry
    holds the [server.name] and the number of tools of the configuration
    [get_mcp_config] returns for that key. *)
Theorem root_endpoints_info_agrees_with_config (s : Registry) (endpoint : string) :
  NoDup (dict_keys s) →
  match outcome (get_mcp_config endpoint) s with
  | Returned config =>
      root_endpoint_info endpoint s
      = Some (PyDict [
          ("server_name", PyStr (ServerInfo.name (MCPConfig.server config)));
          ("tools_count", PyInt (Z.of_nat (length (MCPConfig.tools config)))) ])
  | Raised _ => root_endpoint_info endpoint s = None
  end.
Proof.
  intros Hnd. rewrite get_mcp_config_outcome, root_endpoint_info_NoDup by done.
  by destruct (dict_getitem s endpoint).
Qed.

Lemma root_endpoints_info_agrees_with_config_witness :
  root_endpoint_info "file" MCP_CONFIGS
  = Some (PyDict [("server_name", PyStr "File System MCP Server");
                  ("tools_count", PyInt 3)])
  ∧ root_endpoint_info "mail" MCP_CONFIGS = None.
Proof.
  split.
  - apply (root_endpoints_info_agrees_with_config MCP_CONFIGS "file").
    apply (bool_decide_unpack _). by vm_compute.
  - apply (root_endpoints_info_agrees_with_config MCP_CONFIGS "mail").
    apply (bool_decide_unpack _). by vm_compute.
Defined.

(** X8.  For any registry, the ["endpoint"] fields of the summaries returned
    by [GET /list-endpoints], read in order, are the [available_endpoints]
    list of [GET /]: both handlers enumerate the same keys in the same
    order. *)
Theorem list_endpoints_enumerates_like_root (s : Registry) :
  is_Some (root_available_endpoints s)
  ∧ list_endpoints_entries s ≫= mapM (λ entry, py_getitem entry "endpoint")
    = root_available_endpoints s.
Proof.
  rewrite list_endpoints_entries_endpoints, root_available_endpoints_keys.
  split; [by eexists | done].
Qed.

(** X9.  For any registry, [GET /list-endpoints] has a summary for a key
    exactly when [get_mcp_config] returns for it, and the summary repeats
    the key, the [name], [version] and [description] of the configuration's
    server ([None] for a missing description) and, tool by tool in the
    configuration's order, each tool's [name] and [description]. *)
Theorem list_endpoints_summary_agrees_with_config (s : Registry) (endpoint : string) :
  match outcome (get_mcp_config endpoint) s with
  | Returned config =>
      ∃ summary,
        list_endpoints_entry endpoint s = Some summary
        ∧ py_getitem summary "endpoint" = Some (PyStr endpoint)
        ∧ py_getitem summary "server_name"
          = Some (PyStr (ServerInfo.name (MCPConfig.server config)))
        ∧ py_getitem summary "server_version"
          = Some (PyStr (ServerInfo.version (MCPConfig.server config)))
        ∧ py_getitem summary "server_description"
          = Some (from_option PyStr PyNone
                    (ServerInfo.description (MCPConfig.server config)))
        ∧ summary_tools_field "name" summary
          = Some (PyStr ∘ Tool.name <$> MCPConfig.tools config)
        ∧ summary_tools_field "description" summary
          = Some (PyStr ∘ Tool.description <$> MCPConfig.tools config)
  | Raised _ => list_endpoints_entry endpoint s = None
  end.
Proof.
  rewrite get_mcp_config_outcome, list_endpoints_entry_lookup.
  destruct (dict_getitem s endpoint) as [config|]; [|done].
  eexists. split; [reflexivity|]. split_and!; try reflexivity.
  - unfold summary_tools_field. simpl. by apply mapM_fmap_read.
  - unfold summary_tools_field. simpl. by apply mapM_fmap_read.
Qed.

(** X10.  For any registry and any requests already served, a request is
    answered as it would have been answered first: the response does not
    depend on the history, and the registry it leaves is the one the process
    started with. *)
Theorem responses_do_not_depend_on_history
    (s : Registry) (history : list Request) (req : Request) :
  handle req (serve history s) = (outcome (handle req) s, s).
Proof.
  rewrite serve_unchanged. unfold outcome.
  rewrite <- (handle_final_state req s) at 3. unfold final_state.
  by destruct (handle req s).
Qed.

(** ** The tools the seeded registry serves *)

Section SeededTools.
Implicit Types (s : Registry) (endpoint tool_name : string).

Lemma MCP_CONFIGS_schemas_well_formed :
  Forall (λ entry,
            Forall (λ t, schema_well_formed (Tool.inputSchema t) = true)
              (MCPConfig.tools entry.2))
    MCP_CONFIGS.
Proof. apply (bool_decide_unpack _). by vm_compute. Qed.

Lemma MCP_CONFIGS_all_tool_names_NoDup : NoDup (all_tool_names MCP_CONFIGS).
Proof. apply (bool_decide_unpack _). by vm_compute. Qed.

Lemma all_tool_names_elem_of s endpoint config tool_name :
  dict_getitem s endpoint = Some config →
  tool_name ∈ Tool.name <$> MCPConfig.tools config →
  tool_name ∈ all_tool_names s.
Proof.
  intros Hget%dict_getitem_elem_of Hin. unfold all_tool_names.
  apply list_elem_of_bind. by exists (endpoint, config).
Qed.

(** When no tool name occurs twice in the whole registry, a tool name is
    found under one key only. *)
Lemma all_tool_names_NoDup_owner s endpoint1 endpoint2 config1 config2 tool_name :
  NoDup (all_tool_names s) →
  dict_getitem s endpoint1 = Some config1 →
  dict_getitem s endpoint2 = Some config2 →
  tool_name ∈ Tool.name <$> MCPConfig.tools config1 →
  tool_name ∈ Tool.name <$> MCPConfig.tools config2 →
  endpoint1 = endpoint2.
Proof.
  induction s as [|[k config] s IH]; [done|].
  unfold all_tool_names. rewrite bind_cons. fold (all_tool_names s). simpl.
  intros (_ & Hdisj & Hnd)%NoDup_app Hget1 Hget2 Hin1 Hin2.
  destruct (decide (k = endpoint1)) as [<-|Hne1],
           (decide (k = endpoint2)) as [<-|Hne2]; simplify_eq.
  - done.
  - destruct (Hdisj tool_name Hin1). by eapply all_tool_names_elem_of.
  - destruct (Hdisj tool_name Hin2). by eapply all_tool_names_elem_of.
  - by eapply IH.
Qed.
End SeededTools.

(** X11.  Every tool the seeded registry serves, through [get_mcp_tools] or
    through [get_tool_description] and after any history of requests, has a
    well-formed input schema: its ["type"] is ["object"] and every entry of
    its ["required"] list is a string naming one of its ["properties"]. *)
Theorem served_schemas_require_declared_properties
    (history : list Request) (endpoint : string) :
  (∀ tools,
     outcome (get_mcp_tools endpoint) (registry_after history) = Returned tools →
     Forall (λ t, schema_well_formed (Tool.inputSchema t) = true) tools)
  ∧ (∀ tool_name tool,
       outcome (get_tool_description endpoint tool_name) (registry_after history)
       = Returned tool →
       schema_well_formed (Tool.inputSchema tool) = true).
Proof.
  rewrite registry_after_seeded.
  assert (∀ config, dict_getitem MCP_CONFIGS endpoint = Some config →
            Forall (λ t, schema_well_formed (Tool.inputSchema t) = true)
              (MCPConfig.tools config)) as Hwf.
  { intros config Hget%dict_getitem_elem_of.
    pose proof MCP_CONFIGS_schemas_well_formed as Hall.
    rewrite Forall_forall in Hall. apply (Hall _ Hget). }
  split.
  - intros tools. rewrite get_mcp_tools_outcome.
    destruct (dict_getitem MCP_CONFIGS endpoint) as [config|]; [|done].
    intros [= <-]. by apply Hwf.
  - intros tool_name tool. rewrite get_tool_description_outcome.
    destruct (dict_getitem MCP_CONFIGS endpoint) as [config|]; [|done].
    destruct (next_tool_named tool_name (MCPConfig.tools config)) as [t|] eqn:Hfind;
      [|done].
    intros [= <-]. apply next_tool_named_elem_of in Hfind as [Hin _].
    specialize (Hwf config eq_refl). rewrite Forall_forall in Hwf. by apply Hwf.
Qed.

Lemma served_schemas_require_declared_properties_witness :
  Forall (λ t, schema_well_formed (Tool.inputSchema t) = true)
    (MCPConfig.tools (default (MCPConfig.mk (ServerInfo.mk "" "" None) [])
                        (dict_getitem MCP_CONFIGS "file")))
  ∧ ∃ tool, Tool.name tool = "http_post"
      ∧ schema_well_formed (Tool.inputSchema tool) = true.
Proof.
  split.
  - apply (served_schemas_require_declared_properties [GetRoot] "file"). reflexivity.
  - eexists. split; last first.
    + eapply (proj2 (served_schemas_require_declared_properties [GetRoot] "api")
                "http_post").
      reflexivity.
    + reflexivity.
Defined.

(** X12.  In the seeded registry a tool name belongs to one key: when
    [get_tool_description] returns for the same tool name under two keys,
    the two keys are equal. *)
Theorem tool_name_determines_endpoint
    (history : list Request) (endpoint1 endpoint2 tool_name : string) :
  returns (outcome (get_tool_description endpoint1 tool_name) (registry_after history)) →
  returns (outcome (get_tool_description endpoint2 tool_name) (registry_after history)) →
  endpoint1 = endpoint2.
Proof.
  rewrite registry_after_seeded, !get_tool_description_outcome.
  destruct (dict_getitem MCP_CONFIGS endpoint1) as [config1|] eqn:Hget1;
    [|by intros [? ?]].
  destruct (dict_getitem MCP_CONFIGS endpoint2) as [config2|] eqn:Hget2;
    [|by intros _ [? ?]].
  intros Hret1 Hret2.
  eapply (all_tool_names_NoDup_owner MCP_CONFIGS _ _ config1 config2 tool_name);
    [apply MCP_CONFIGS_all_tool_names_NoDup | done | done | |].
  - apply next_tool_named_is_Some.
    destruct (next_tool_named tool_name (MCPConfig.tools config1));
      [by eexists | by destruct Hret1].
  - apply next_tool_named_is_Some.
    destruct (next_tool_named tool_name (MCPConfig.tools config2));
      [by eexists | by destruct Hret2].
Qed.

Lemma tool_name_determines_endpoint_witness :
  returns (outcome (get_tool_description "file" "read_file") (registry_after [GetRoot]))
  ∧ "file" = "file".
Proof.
  assert (returns (outcome (get_tool_description "file" "read_file")
                     (registry_after [GetRoot]))) as Hret by (by eexists).
  split; [exact Hret|].
  exact (tool_name_determines_endpoint [GetRoot] "file" "file" "read_file" Hret Hret).
Defined.

(** * Properties of [configure_logger] *)

Section LoggerFacts.
Implicit Types (h : LogHandler) (hs pre rest : list LogHandler).

Lemma removeHandler_length hs h : length (removeHandler h hs) ≤ length hs.
Proof.
  induction hs as [|h' hs IH]; simpl; [done|].
  case_decide; simpl; lia.
Qed.


(** The step bound does not cut the loop short: once it covers the elements
    from the iterator's index on, more steps change nothing. *)
Lemma remove_handlers_while_iterating_steps steps extra i hs :
  length hs ≤ i + steps →
  remove_handlers_while_iterating (steps + extra) i hs
  = remove_handlers_while_iterating steps i hs.
Proof.
  revert i hs. induction steps as [|steps IH]; intros i hs Hlen; simpl.
  - destruct extra as [|extra]; simpl; [done|].
    by rewrite lookup_ge_None_2 by lia.
  - destruct (hs !! i) as [h|]; [|done].
    apply IH. pose proof (removeHandler_length hs h). lia.
Qed.


End LoggerFacts.

Example three_stale_handlers_leave_one :
  let stale id := {| handler_id := id; handler_target := StreamTarget;
                     handler_level := NOTSET; handler_formatter := None |} in
  logger_handlers
    (configure_logger ascii_lower (λ _ _ root, root) [("PROFILE", "Prod")] 9
       {| logger_level := 30; logger_handlers := [stale 1; stale 2; stale 3] |})
  = [ stale 2;
      {| handler_id := 9; handler_target := FileTarget "app.log" "utf-8";
         handler_level := 20;
         handler_formatter := Some "%(asctime)s %(levelname)s %(message)s" |} ].
Proof. reflexivity. Qed.



